(** * fast-apis: a shallow embedding of [main.py] and [soap_server.py]

    The request/response endpoints ([rest_example], [webhook_listener],
    [composite], [rpc_endpoint]) are embedded in a state-and-exception monad
    over the process's standard output.  The streaming endpoints
    ([websocket_endpoint], [event_stream]) are interaction trees over the
    framework calls they make, run against a client by fuel-bounded
    interpreters.  [SoapService.say_hello] is a pure function on strings. *)

From Stdlib Require Import ZArith List String Ascii Bool Lia DecimalString.
From Stdlib Require Import Floats.SpecFloat.
From ITree Require Import ITree.
Import ListNotations.
Local Open Scope string_scope.
Local Open Scope list_scope.

(** ** Python values *)

Module Py.

(** The values [json.loads] can produce, which are also the values the
    handlers return.  A [dict] keeps its insertion order, so it is an
    association list; [json.loads] never yields a key twice.  A [str] is
    held as the bytes of its UTF-8 encoding; a lone surrogate, which a JSON
    escape such as [\ud800] puts into a [str] and which UTF-8 proper cannot
    encode, is held as the three bytes ED, A0..BF, 80..BF. *)
#[local] Set Warnings "-register-all".
Inductive value : Type :=
| PyNone
| PyBool (b : bool)
| PyInt (z : Z)
| PyFloat (f : spec_float)
| PyStr (s : string)
| PyList (l : list value)
| PyDict (d : list (string * value)).

Definition dict := list (string * value).

(** Key lookup in a [dict]. *)
Fixpoint lookup (d : dict) (k : string) : option value :=
  match d with
  | [] => None
  | (k', v) :: d' => if String.eqb k' k then Some v else lookup d' k
  end.

(** [d.get(k)]: the value under [k], [None] when the key is absent. *)
Definition dict_get (d : dict) (k : string) : value :=
  match lookup d k with
  | Some v => v
  | None => PyNone
  end.

(** [x == s] for a [str] literal [s]: only a [str] with the same characters
    is equal to it. *)
Definition eq_str (x : value) (s : string) : bool :=
  match x with
  | PyStr t => String.eqb t s
  | _ => false
  end.

Definition is_dict (x : value) : bool :=
  match x with
  | PyDict _ => true
  | _ => false
  end.

(** *** f-strings *)

(** A replacement field formats a [str] as itself and an [int] in decimal
    (CPython refuses to format an [int] of more than 4300 digits; the
    f-strings of this program format [str]s and the numbers 0 to 4). *)
Inductive fpart : Type :=
| Lit (s : string)
| FStr (s : string)
| FInt (z : Z).

Definition render (p : fpart) : string :=
  match p with
  | Lit s => s
  | FStr s => s
  | FInt z => NilZero.string_of_int (Z.to_int z)
  end.

Definition fstring (ps : list fpart) : string :=
  String.concat "" (map render ps).

(** The line feed, written [\n] in the source. *)
Definition nl : string := String (ascii_of_nat 10) EmptyString.

(** [range(n)] *)
Definition range (n : nat) : list Z := map Z.of_nat (seq 0 n).

(** A [str] with a lone surrogate in it: strict UTF-8 cannot encode it. *)
Fixpoint has_surrogate (s : string) : bool :=
  match s with
  | String a ((String b _) as s') =>
      (Ascii.eqb a (ascii_of_nat 237) &&
       (160 <=? nat_of_ascii b)%nat && (nat_of_ascii b <=? 191)%nat)
      || has_surrogate s'
  | _ => false
  end.

End Py.

Import Py.

(** ** The handler monad *)

Inductive exn : Type :=
| JSONDecodeError
| AttributeError
| WebSocketDisconnect
| UnicodeEncodeError.

Inductive outcome (A : Type) : Type :=
| Return (a : A)
| Raise (e : exn).
Arguments Return {A} a.
Arguments Raise {A} e.

(** What one [write] call puts on a text stream: a [str] as it is, or
    [str(v)] of a value [v] that is not a [str]. *)
Inductive piece : Type :=
| Text (s : string)
| Str (v : value).

(** Standard output: the pieces written so far, oldest first. *)
Definition stdout := list piece.

(** [sys.stdout], as the process was started with it: [write_raises p] is
    the exception, if any, that ends formatting and writing the piece [p]
    (a [str] the stream's encoding cannot encode, a closed stream). *)
Class TextIO : Type := { write_raises : piece -> option exn }.

(** A stream that encodes to UTF-8 with the [strict] error handler.  The
    [str()] of a value that is not a [str] is its [repr], which escapes
    surrogates. *)
Definition utf8_strict : TextIO :=
  {| write_raises := fun p =>
       match p with
       | Text s => if has_surrogate s then Some UnicodeEncodeError else None
       | Str _ => None
       end |}.

Definition M (A : Type) : Type := stdout -> outcome A * stdout.

Definition ret {A} (a : A) : M A := fun s => (Return a, s).

Definition raise {A} (e : exn) : M A := fun s => (Raise e, s).

Definition bind {A B} (m : M A) (k : A -> M B) : M B :=
  fun s =>
    match m s with
    | (Return a, s') => k a s'
    | (Raise e, s') => (Raise e, s')
    end.

Declare Scope py_scope.
Delimit Scope py_scope with py.
Notation "x <- m ;; k" := (bind m (fun x => k))
  (at level 61, m at next level, right associativity) : py_scope.
Notation "m ;; k" := (bind m (fun _ => k))
  (at level 61, right associativity) : py_scope.

(** [sys.stdout.write(p)]: what was written before stays written. *)
Definition write {out : TextIO} (p : piece) : M unit :=
  fun s =>
    match write_raises p with
    | Some e => (Raise e, s)
    | None => (Return tt, s ++ [p])
    end.

Fixpoint write_all {out : TextIO} (ps : list piece) : M unit :=
  match ps with
  | [] => ret tt
  | p :: ps' => (write p ;; write_all ps')%py
  end.

(** [str(v)], as [print] writes it. *)
Definition str_piece (v : value) : piece :=
  match v with
  | PyStr s => Text s
  | _ => Str v
  end.

(** The writes of a [print] call: the arguments separated by a space, then
    a line feed. *)
Fixpoint print_args (args : list value) : list piece :=
  match args with
  | [] => []
  | [a] => [str_piece a]
  | a :: args' => str_piece a :: Text " " :: print_args args'
  end.

Definition print {out : TextIO} (args : list value) : M unit :=
  write_all (print_args args ++ [Text nl]).

(** ** main.py: request/response endpoints *)

(** The handlers use a [Request] only through [await request.json()], which
    returns the parsed body or raises [json.JSONDecodeError]. *)
Record Request : Type := mkRequest { body_json : outcome value }.

Definition request_json (request : Request) : M value :=
  fun s => (body_json request, s).

(** [data.get(key)]; only a [dict] has the attribute [get]. *)
Definition get (data : value) (key : string) : M value :=
  match data with
  | PyDict d => ret (dict_get d key)
  | _ => raise AttributeError
  end.

Local Open Scope py_scope.

Definition rest_example : M value :=
  ret (PyDict [("message", PyStr "Hello from REST API!")]).

Definition webhook_listener {out : TextIO} (request : Request) : M value :=
  payload <- request_json request ;;
  print [PyStr "Webhook received:"; payload] ;;
  ret (PyDict [("status", PyStr "received"); ("data", payload)]).

Definition composite : M value :=
  ret (PyDict
    [("user", PyDict [("id", PyInt 1); ("name", PyStr "Alice")]);
     ("orders", PyList
        [PyDict [("id", PyInt 101); ("item", PyStr "Book")];
         PyDict [("id", PyInt 102); ("item", PyStr "Laptop")]])]).

Definition rpc_endpoint (request : Request) : M value :=
  data <- request_json request ;;
  m <- get data "method" ;;
  if eq_str m "ping" then
    i <- get data "id" ;;
    ret (PyDict [("jsonrpc", PyStr "2.0"); ("result", PyStr "pong"); ("id", i)])
  else
    i <- get data "id" ;;
    ret (PyDict [("jsonrpc", PyStr "2.0"); ("error", PyStr "Method not found");
                 ("id", i)]).

Local Close Scope py_scope.

(** *** From the handler to the wire *)






(** ** soap_server.py *)

Module SoapService.

Definition say_hello {Ctx : Type} (ctx : Ctx) (name : string) : string :=
  fstring [Lit "Hello "; FStr name].

End SoapService.

(** ** main.py: streaming endpoints *)

(** *** WebSocket *)

(** The calls [websocket_endpoint] makes on its [WebSocket]. *)
Variant wsE : Type -> Type :=
| accept : wsE unit
| receive_text : wsE string
| send_text (data : string) : wsE unit.

Definition websocket_endpoint : itree wsE void :=
  ITree.bind (ITree.trigger accept) (fun _ =>
  ITree.forever
    (ITree.bind (ITree.trigger receive_text) (fun data =>
     ITree.trigger (send_text (fstring [Lit "You said: "; FStr data]))))).

(** What is seen on the connection. *)
Inductive ws_event : Type :=
| Accepted
| Received (d : string)
| Sent (d : string).

(** How a run ends: the coroutine returned, an exception left it, or the
    interpreter's fuel ran out first. *)
Inductive ending (R : Type) : Type :=
| Done (r : R)
| Raised (e : exn)
| OutOfFuel.
Arguments Done {R} r.
Arguments Raised {R} e.
Arguments OutOfFuel {R}.

(** The client sends the text frames of [inbox], one per [receive_text], and
    then disconnects: the next [receive_text] raises
    [WebSocketDisconnect]. *)
Fixpoint run_ws {R} (fuel : nat) (t : itree wsE R) (inbox : list string)
  : list ws_event * ending R :=
  match fuel with
  | O => ([], OutOfFuel)
  | S fuel' =>
    match observe t with
    | RetF r => ([], Done r)
    | TauF t' => run_ws fuel' t' inbox
    | VisF e k =>
      match e in wsE X return (X -> itree wsE R) -> _ with
      | accept => fun k =>
          let (tr, o) := run_ws fuel' (k tt) inbox in (Accepted :: tr, o)
      | receive_text => fun k =>
          match inbox with
          | [] => ([], Raised WebSocketDisconnect)
          | d :: inbox' =>
              let (tr, o) := run_ws fuel' (k d) inbox' in (Received d :: tr, o)
          end
      | send_text d => fun k =>
          let (tr, o) := run_ws fuel' (k tt) inbox in (Sent d :: tr, o)
      end k
    end
  end.

(** *** Server-sent events *)

(** The suspension points of the async generator [event_stream]. *)
Variant sseE : Type -> Type :=
| yield (chunk : string) : sseE unit
| sleep (seconds : Z) : sseE unit.

(** [for x in xs: body(x)] *)
Fixpoint for_each {E A} (xs : list A) (body : A -> itree E unit) : itree E unit :=
  match xs with
  | [] => Ret tt
  | x :: xs' => ITree.bind (body x) (fun _ => for_each xs' body)
  end.

Definition event_stream : itree sseE unit :=
  for_each (range 5) (fun i =>
    ITree.bind
      (ITree.trigger (yield (fstring [Lit "data: Server message "; FInt i; Lit (nl ++ nl)])))
      (fun _ => ITree.trigger (sleep 1))).

Record StreamingResponse : Type := mkStreamingResponse {
  body_iterator : itree sseE unit;
  media_type : string
}.

Definition sse_endpoint : M StreamingResponse :=
  ret (mkStreamingResponse event_stream "text/event-stream").

Inductive sse_event : Type :=
| Chunk (c : string)
| Slept (seconds : Z).

(** The framework iterates the generator to exhaustion, writing each
    yielded chunk to the response body. *)
Fixpoint drain {R} (fuel : nat) (t : itree sseE R) : list sse_event * ending R :=
  match fuel with
  | O => ([], OutOfFuel)
  | S fuel' =>
    match observe t with
    | RetF r => ([], Done r)
    | TauF t' => drain fuel' t'
    | VisF e k =>
      match e in sseE X return (X -> itree sseE R) -> _ with
      | yield c => fun k =>
          let (tr, o) := drain fuel' (k tt) in (Chunk c :: tr, o)
      | sleep n => fun k =>
          let (tr, o) := drain fuel' (k tt) in (Slept n :: tr, o)
      end k
    end
  end.

(** The messages of a response body, in the order they were written. *)
Fixpoint chunks (tr : list sse_event) : list string :=
  match tr with
  | [] => []
  | Chunk c :: tr' => c :: chunks tr'
  | Slept _ :: tr' => chunks tr'
  end.

(** The SSE framing of one message. *)
Definition frame (payload : string) : string :=
  "data: " ++ payload ++ nl ++ nl.

(** ** Vocabulary of the properties *)

(** The two responses of [rpc_endpoint]. *)
Definition pong (i : value) : value :=
  PyDict [("jsonrpc", PyStr "2.0"); ("result", PyStr "pong"); ("id", i)].

Definition method_not_found (i : value) : value :=
  PyDict [("jsonrpc", PyStr "2.0"); ("error", PyStr "Method not found"); ("id", i)].

(** A body that is not JSON, or is JSON but not an object. *)
Definition malformed (req : Request) : bool :=
  match body_json req with
  | Return v => negb (is_dict v)
  | Raise _ => true
  end.

(** Invoke a handler, then invoke it again in the state the first call
    left. *)
Definition twice {A} (h : M A) (s : stdout) : outcome A * outcome A * stdout :=
  let (o1, s1) := h s in
  let (o2, s2) := h s1 in
  (o1, o2, s2).

(** One turn of the echo loop. *)
Definition echo_turn : itree wsE unit :=
  ITree.bind (ITree.trigger receive_text) (fun data =>
  ITree.trigger (send_text (fstring [Lit "You said: "; FStr data]))).

(** What the connection shows for the frames [inbox]. *)
Definition echo_trace (inbox : list string) : list ws_event :=
  flat_map (fun d => [Received d; Sent ("You said: " ++ d)%string]) inbox.

(** The loop body [yield f(x); await asyncio.sleep(n)]. *)
Definition yield_then_sleep {A} (f : A -> string) (n : Z) (x : A) : itree sseE unit :=
  ITree.bind (ITree.trigger (yield (f x))) (fun _ => ITree.trigger (sleep n)).

(** The payloads of the messages of [event_stream]. *)
Definition server_messages : list string :=
  ["Server message 0"; "Server message 1"; "Server message 2";
   "Server message 3"; "Server message 4"].

(** A payload that fits in one [data:] line. *)
Fixpoint single_line (s : string) : bool :=
  match s with
  | EmptyString => true
  | String c s' => negb (Ascii.eqb c (ascii_of_nat 10)) && single_line s'
  end.

Definition framed (c : string) : Prop :=
  exists payload, c = frame payload /\ single_line payload = true.

(** Serve a sequence of handler invocations one after the other, each in
    the state the previous one left; an exception ends its own invocation
    only. *)
Fixpoint serve {A} (hs : list (M A)) (s : stdout) : list (outcome A) * stdout :=
  match hs with
  | [] => ([], s)
  | h :: hs' =>
      let (o, s1) := h s in
      let (os, s2) := serve hs' s1 in
      (o :: os, s2)
  end.

(** The pieces of [ps] that get written: those before the first one the
    stream refuses. *)
Fixpoint accepted {out : TextIO} (ps : list piece) : list piece :=
  match ps with
  | [] => []
  | p :: ps' =>
      match write_raises p with
      | Some _ => []
      | None => p :: accepted ps'
      end
  end.

(** The exception of the first piece of [ps] the stream refuses. *)
Fixpoint refusal {out : TextIO} (ps : list piece) : option exn :=
  match ps with
  | [] => None
  | p :: ps' =>
      match write_raises p with
      | Some e => Some e
      | None => refusal ps'
      end
  end.

(** The writes of [print("Webhook received:", payload)]. *)
Definition webhook_print (payload : value) : list piece :=
  [Text "Webhook received:"; Text " "; str_piece payload; Text nl].


(** The answer of the webhook to a body that parsed as [p]. *)
Definition received (p : value) : value :=
  PyDict [("status", PyStr "received"); ("data", p)].

(** The lone surrogate U+D800, as the JSON body ["\ud800"] parses. *)
Definition lone_surrogate : string :=
  String (ascii_of_nat 237) (String (ascii_of_nat 160)
    (String (ascii_of_nat 128) EmptyString)).

(** Frames received and frames sent in a trace. *)
Fixpoint received_count (tr : list ws_event) : nat :=
  match tr with
  | [] => 0
  | Received _ :: tr' => S (received_count tr')
  | _ :: tr' => received_count tr'
  end.

Fixpoint sent_count (tr : list ws_event) : nat :=
  match tr with
  | [] => 0
  | Sent _ :: tr' => S (sent_count tr')
  | _ :: tr' => sent_count tr'
  end.

(** Seconds slept in a trace. *)
Fixpoint slept_total (tr : list sse_event) : Z :=
  match tr with
  | [] => 0
  | Slept n :: tr' => n + slept_total tr'
  | Chunk _ :: tr' => slept_total tr'
  end.

(** * Properties *)

(** ** Dictionaries and f-strings *)

Lemma dict_get_some (d : dict) (k : string) (v : value) :
  lookup d k = Some v -> dict_get d k = v.
Proof. unfold dict_get. intros ->. reflexivity. Qed.

Lemma dict_get_none (d : dict) (k : string) :
  lookup d k = None -> dict_get d k = PyNone.
Proof. unfold dict_get. intros ->. reflexivity. Qed.

Lemma eq_str_true (x : value) (s : string) :
  eq_str x s = true <-> x = PyStr s.
Proof.
  destruct x; simpl; split; try discriminate.
  - intros H. apply String.eqb_eq in H. now subst.
  - intros [= ->]. apply String.eqb_refl.
Qed.

Lemma eq_str_false (x : value) (s : string) :
  eq_str x s = false <-> x <> PyStr s.
Proof.
  rewrite <- eq_str_true. destruct (eq_str x s); split; congruence.
Qed.

Lemma fstring_lit_str (l s : string) :
  fstring [Lit l; FStr s] = (l ++ s)%string.
Proof. reflexivity. Qed.

(** ** The handler monad *)

Lemma bind_return {A B} (m : M A) (k : A -> M B) (s s' : stdout) (a : A) :
  m s = (Return a, s') -> bind m k s = k a s'.
Proof. unfold bind. intros ->. reflexivity. Qed.

Lemma bind_raise {A B} (m : M A) (k : A -> M B) (s s' : stdout) (e : exn) :
  m s = (Raise e, s') -> bind m k s = (Raise e, s').
Proof. unfold bind. intros ->. reflexivity. Qed.

Lemma get_dict (d : dict) (k : string) (s : stdout) :
  get (PyDict d) k s = (Return (dict_get d k), s).
Proof. reflexivity. Qed.

Lemma get_not_dict (x : value) (k : string) (s : stdout) :
  is_dict x = false -> get x k s = (Raise AttributeError, s).
Proof. destruct x; simpl; intros H; try reflexivity; discriminate. Qed.

(** [rpc_endpoint] on an object body, by the test on ["method"]. *)
Lemma rpc_endpoint_dict (d : dict) (s : stdout) :
  rpc_endpoint (mkRequest (Return (PyDict d))) s =
  (Return (if eq_str (dict_get d "method") "ping"
           then pong (dict_get d "id")
           else method_not_found (dict_get d "id")), s).
Proof.
  unfold rpc_endpoint, bind, request_json. simpl.
  destruct (eq_str (dict_get d "method") "ping"); reflexivity.
Qed.

Lemma rpc_endpoint_parse_error (e : exn) (s : stdout) :
  rpc_endpoint (mkRequest (Raise e)) s = (Raise e, s).
Proof. reflexivity. Qed.

Lemma rpc_endpoint_not_dict (v : value) (s : stdout) :
  is_dict v = false ->
  rpc_endpoint (mkRequest (Return v)) s = (Raise AttributeError, s).
Proof.
  intros H. unfold rpc_endpoint.
  erewrite bind_return by reflexivity.
  erewrite bind_raise by (apply get_not_dict; exact H).
  reflexivity.
Qed.

Lemma write_all_run {out : TextIO} (ps : list piece) (s : stdout) :
  write_all ps s =
  (match refusal ps with
   | Some e => Raise e
   | None => Return tt
   end, s ++ accepted ps).
Proof.
  revert s. induction ps as [| p ps IH]; intros s; simpl.
  - now rewrite app_nil_r.
  - unfold bind, write. destruct (write_raises p) as [e |].
    + now rewrite app_nil_r.
    + rewrite IH, <- app_assoc. reflexivity.
Qed.

Lemma accepted_all {out : TextIO} (ps : list piece) :
  refusal ps = None -> accepted ps = ps.
Proof.
  induction ps as [| p ps IH]; simpl; [reflexivity |].
  destruct (write_raises p); [discriminate |].
  intros H. now rewrite IH.
Qed.


(** [webhook_listener] on a body that parsed: the handler returns when every
    write of its [print] succeeds, and is left by the first refusal
    otherwise. *)
Lemma webhook_listener_parsed {out : TextIO} (p : value) (s : stdout) :
  webhook_listener (mkRequest (Return p)) s =
  (match refusal (webhook_print p) with
   | Some e => Raise e
   | None => Return (received p)
   end, s ++ accepted (webhook_print p)).
Proof.
  unfold webhook_listener, print, bind, request_json. simpl body_json.
  cbv beta iota.
  change (print_args [PyStr "Webhook received:"; p] ++ [Text nl])
    with (webhook_print p).
  rewrite write_all_run.
  destruct (refusal (webhook_print p)); reflexivity.
Qed.

Lemma webhook_listener_parse_error {out : TextIO} (e : exn) (s : stdout) :
  webhook_listener (mkRequest (Raise e)) s = (Raise e, s).
Proof. reflexivity. Qed.

(** ** JSON-RPC *)

(** C1: a POST to the RPC path whose body is an object with "method" equal
    to "ping" and an id value [v] is answered with exactly
    {"jsonrpc":"2.0","result":"pong","id":v}; nothing is printed. *)
Theorem rpc_ping (d : dict) (v : value) (s : stdout) :
  lookup d "method" = Some (PyStr "ping") ->
  lookup d "id" = Some v ->
  rpc_endpoint (mkRequest (Return (PyDict d))) s =
  (Return (PyDict [("jsonrpc", PyStr "2.0"); ("result", PyStr "pong"); ("id", v)]), s).
Proof.
  intros Hm Hi. rewrite rpc_endpoint_dict.
  rewrite (dict_get_some _ _ _ Hm), (dict_get_some _ _ _ Hi). reflexivity.
Qed.

Lemma rpc_ping_witness :
  rpc_endpoint
    (mkRequest (Return (PyDict [("method", PyStr "ping"); ("id", PyInt 7)]))) [] =
  (Return (PyDict [("jsonrpc", PyStr "2.0"); ("result", PyStr "pong");
                   ("id", PyInt 7)]), []).
Proof. apply rpc_ping; reflexivity. Defined.

(** C2: a POST to the RPC path whose body is an object in which "method" is
    absent, or is any value other than "ping", is answered with
    {"jsonrpc":"2.0","error":"Method not found","id":v}, where [v] is the
    request's id if present and null otherwise. *)
Theorem rpc_method_not_found (d : dict) (s : stdout) :
  lookup d "method" = None \/
  (exists m, lookup d "method" = Some m /\ m <> PyStr "ping") ->
  rpc_endpoint (mkRequest (Return (PyDict d))) s =
  (Return (PyDict [("jsonrpc", PyStr "2.0"); ("error", PyStr "Method not found");
                   ("id", match lookup d "id" with
                          | Some v => v
                          | None => PyNone
                          end)]), s).
Proof.
  intros H. rewrite rpc_endpoint_dict.
  assert (Hne : eq_str (dict_get d "method") "ping" = false).
  { destruct H as [H | [m [H Hm]]].
    - rewrite (dict_get_none _ _ H). reflexivity.
    - rewrite (dict_get_some _ _ _ H). now apply eq_str_false. }
  rewrite Hne. reflexivity.
Qed.

Lemma rpc_method_not_found_witness :
  rpc_endpoint (mkRequest (Return (PyDict [("id", PyInt 7)]))) [] =
    (Return (method_not_found (PyInt 7)), []) /\
  rpc_endpoint (mkRequest (Return (PyDict [("method", PyStr "pong")]))) [] =
    (Return (method_not_found PyNone), []).
Proof.
  split.
  - apply (rpc_method_not_found [("id", PyInt 7)] []). left. reflexivity.
  - apply (rpc_method_not_found [("method", PyStr "pong")] []).
    right. exists (PyStr "pong"). split; [reflexivity | discriminate].
Defined.

(** [rpc_endpoint] prints nothing and its outcome does not depend on what
    was printed before. *)
Lemma rpc_endpoint_pure (req : Request) :
  exists o, forall s, rpc_endpoint req s = (o, s).
Proof.
  destruct req as [[v | e]].
  - destruct (is_dict v) eqn:Hd.
    + destruct v; try discriminate.
      eexists. intros s. apply rpc_endpoint_dict.
    + eexists. intros s. now apply rpc_endpoint_not_dict.
  - eexists. intros s. apply rpc_endpoint_parse_error.
Qed.

(** A request in which "method" is absent is handled by the handler itself,
    as an unknown method. *)
Lemma rpc_missing_method (d : dict) (s : stdout) :
  lookup d "method" = None ->
  rpc_endpoint (mkRequest (Return (PyDict d))) s =
  (Return (method_not_found (dict_get d "id")), s).
Proof.
  intros H. rewrite rpc_endpoint_dict, (dict_get_none _ _ H). reflexivity.
Qed.

(** Counterexample to C3 as stated: the body {"id":7} has no "method", and
    the endpoint does not reject it; the handler runs and answers it as an
    unknown method. *)
Lemma rpc_missing_method_not_rejected :
  let req := mkRequest (Return (PyDict [("id", PyInt 7)])) in
  lookup [("id", PyInt 7)] "method" = None /\
  rpc_endpoint req [] = (Return (method_not_found (PyInt 7)), []) /\
  ~ (exists e s', rpc_endpoint req [] = (Raise e, s')).
Proof.
  cbv zeta. repeat split.
  intros [e [s' H]]. discriminate H.
Qed.

(** C3, amended: a JSON-RPC request whose body is an object in which
    "method" is absent is not rejected by a decode step; the handler answers
    it with the "Method not found" response carrying the request's id (null
    when absent), the answer it gives to the same request naming any method
    [m] other than "ping". *)
Theorem rpc_missing_method_as_unknown (d : dict) (m : value) (s : stdout) :
  lookup d "method" = None ->
  m <> PyStr "ping" ->
  rpc_endpoint (mkRequest (Return (PyDict d))) s =
    (Return (method_not_found (dict_get d "id")), s) /\
  rpc_endpoint (mkRequest (Return (PyDict (("method", m) :: d)))) s =
    rpc_endpoint (mkRequest (Return (PyDict d))) s.
Proof.
  intros Hd Hm. split.
  - now apply rpc_missing_method.
  - rewrite (rpc_missing_method d s Hd), rpc_endpoint_dict.
    unfold dict_get at 1. simpl.
    apply eq_str_false in Hm. rewrite Hm. reflexivity.
Qed.

Lemma rpc_missing_method_as_unknown_witness :
  rpc_endpoint (mkRequest (Return (PyDict [("id", PyInt 7)]))) [] =
    (Return (method_not_found (PyInt 7)), []) /\
  rpc_endpoint
    (mkRequest (Return (PyDict [("method", PyStr "sum"); ("id", PyInt 7)]))) [] =
    rpc_endpoint (mkRequest (Return (PyDict [("id", PyInt 7)]))) [].
Proof.
  apply (rpc_missing_method_as_unknown [("id", PyInt 7)] (PyStr "sum") []).
  - reflexivity.
  - discriminate.
Defined.

(** ** Malformed bodies *)




(** ** Webhook *)

(** Counterexample to C9 as stated: the body ["\ud800"] parses, as a string
    holding a lone surrogate; on a UTF-8 standard output [print] raises
    [UnicodeEncodeError] when it comes to write it, and the handler does not
    return. *)
Lemma webhook_unencodable_payload :
  let req := mkRequest (Return (PyStr lone_surrogate)) in
  body_json req = Return (PyStr lone_surrogate) /\
  webhook_listener (out := utf8_strict) req [] =
    (Raise UnicodeEncodeError, [Text "Webhook received:"; Text " "]) /\
  ~ (exists r s', webhook_listener (out := utf8_strict) req [] = (Return r, s')).
Proof.
  cbv zeta. split; [reflexivity |]. split; [reflexivity |].
  intros [r [s' H]]. discriminate H.
Qed.

(** C9, amended: a POST to the webhook path whose body parses as the JSON
    value [p], and whose [print] call writes all its pieces to standard
    output, is answered with {"status":"received","data":p}, [p]
    unchanged. *)
Theorem webhook_echo {out : TextIO} (req : Request) (p : value) (s : stdout) :
  body_json req = Return p ->
  refusal (webhook_print p) = None ->
  webhook_listener req s =
  (Return (PyDict [("status", PyStr "received"); ("data", p)]),
   s ++ [Text "Webhook received:"; Text " "; str_piece p; Text nl]).
Proof.
  destruct req as [b]. intros Hb Hp. simpl in Hb. subst b.
  rewrite webhook_listener_parsed, Hp, (accepted_all _ Hp). reflexivity.
Qed.

Lemma webhook_echo_witness :
  webhook_listener (out := utf8_strict)
    (mkRequest (Return (PyDict [("event", PyStr "push")]))) [] =
  (Return (PyDict [("status", PyStr "received");
                   ("data", PyDict [("event", PyStr "push")])]),
   [Text "Webhook received:"; Text " "; Str (PyDict [("event", PyStr "push")]);
    Text nl]).
Proof.
  apply (webhook_echo (out := utf8_strict)
           (mkRequest (Return (PyDict [("event", PyStr "push")])))).
  - reflexivity.
  - reflexivity.
Defined.

(** ** Idempotence *)

Lemma twice_pure {A} (h : M A) (o : outcome A) (s : stdout) :
  (forall s', h s' = (o, s')) -> twice h s = (o, o, s).
Proof. intros H. unfold twice. rewrite !H. reflexivity. Qed.

(** C8: for the REST, composite and RPC endpoints, invoking the handler twice
    with the same input yields equal results, and the second call finds the
    process as the first call found it. *)
Theorem handlers_idempotent (req : Request) (s : stdout) :
  (exists o, twice rest_example s = (o, o, s)) /\
  (exists o, twice composite s = (o, o, s)) /\
  (exists o, twice (rpc_endpoint req) s = (o, o, s)).
Proof.
  repeat split.
  - eexists. reflexivity.
  - eexists. reflexivity.
  - destruct (rpc_endpoint_pure req) as [o H].
    exists o. now apply twice_pure.
Qed.

(** The webhook handler answers a repeated request with the same outcome,
    but each call writes. *)
Lemma webhook_listener_twice {out : TextIO} (p : value) (s : stdout) :
  exists o,
    twice (webhook_listener (mkRequest (Return p))) s =
    (o, o, (s ++ accepted (webhook_print p)) ++ accepted (webhook_print p)).
Proof.
  eexists. unfold twice. rewrite !webhook_listener_parsed. reflexivity.
Qed.

(** ** SOAP *)

(** C10: for every string [name], [say_hello] returns "Hello " followed by
    [name]. *)
Theorem say_hello_spec {Ctx : Type} (ctx : Ctx) (name : string) :
  SoapService.say_hello ctx name = ("Hello " ++ name)%string.
Proof. unfold SoapService.say_hello. apply fstring_lit_str. Qed.

(** ** WebSocket *)

Lemma run_ws_echo_turn {R} (fuel : nat) (d : string) (inbox : list string) :
  run_ws (S (S (S fuel))) (ITree.forever echo_turn : itree wsE R) (d :: inbox) =
  let (tr, o) := run_ws fuel (ITree.forever echo_turn : itree wsE R) inbox in
  (Received d :: Sent ("You said: " ++ d)%string :: tr, o).
Proof.
  cbn. 
  destruct (run_ws fuel (ITree.forever echo_turn) inbox) as [tr o].
  reflexivity.
Qed.

(** A run sees a tree only through [observe]. *)
Lemma run_ws_observe {R} (fuel : nat) (t u : itree wsE R) (inbox : list string) :
  observe t = observe u -> run_ws fuel t inbox = run_ws fuel u inbox.
Proof. intros H. destruct fuel; simpl; [reflexivity | now rewrite H]. Qed.

Lemma run_ws_disconnect {R} (fuel : nat) :
  run_ws (S fuel) (ITree.forever echo_turn : itree wsE R) [] =
  ([], Raised WebSocketDisconnect).
Proof. reflexivity. Qed.

(** With three steps of fuel per frame and one for the last
    [receive_text], the loop echoes every frame and is then left by
    [WebSocketDisconnect]. *)
Lemma run_ws_echo_loop {R} (inbox : list string) :
  forall fuel, 3 * List.length inbox + 1 <= fuel ->
  run_ws fuel (ITree.forever echo_turn : itree wsE R) inbox =
  (echo_trace inbox, Raised WebSocketDisconnect).
Proof.
  induction inbox as [| d inbox IH]; intros fuel Hf.
  - destruct fuel as [| fuel]; [simpl in Hf; lia |]. apply run_ws_disconnect.
  - simpl List.length in Hf.
    destruct fuel as [| [| [| fuel]]]; try lia.
    rewrite run_ws_echo_turn, IH by lia. reflexivity.
Qed.

(** Whenever the run is cut, what the connection has shown so far is a
    prefix of the echo exchange: no reply is missing, doubled or out of
    turn. *)
Lemma run_ws_echo_prefix {R} (inbox : list string) :
  forall fuel, exists rest,
    echo_trace inbox =
    fst (run_ws fuel (ITree.forever echo_turn : itree wsE R) inbox) ++ rest.
Proof.
  induction inbox as [| d inbox IH]; intros fuel.
  - exists []. destruct fuel; reflexivity.
  - destruct fuel as [| [| [| fuel]]].
    + eexists. reflexivity.
    + eexists. reflexivity.
    + eexists. reflexivity.
    + destruct (IH fuel) as [rest Hrest].
      exists rest. rewrite run_ws_echo_turn.
      destruct (run_ws fuel (ITree.forever echo_turn) inbox) as [tr o].
      simpl in *. now rewrite Hrest.
Qed.

(** The handler accepts the connection and enters the loop. *)
Lemma run_ws_accept (fuel : nat) (inbox : list string) :
  run_ws (S fuel) websocket_endpoint inbox =
  let (tr, o) := run_ws fuel (ITree.forever echo_turn : itree wsE void) inbox in
  (Accepted :: tr, o).
Proof.
  change (run_ws (S fuel) websocket_endpoint inbox)
    with (let (tr, o) :=
            run_ws fuel (ITree.bind (Ret tt) (fun _ => ITree.forever echo_turn)
                           : itree wsE void) inbox
          in (Accepted :: tr, o)).
  rewrite (run_ws_observe fuel _ (ITree.forever echo_turn)); reflexivity.
Qed.

(** C7: on an accepted session, every received text frame [d] is answered
    by exactly one text frame "You said: " followed by [d], sent before the
    next frame is received; the session ends when the client disconnects. *)
Theorem websocket_echo (inbox : list string) (fuel : nat) :
  3 * List.length inbox + 2 <= fuel ->
  run_ws fuel websocket_endpoint inbox =
  (Accepted :: flat_map (fun d => [Received d; Sent ("You said: " ++ d)%string]) inbox,
   Raised WebSocketDisconnect).
Proof.
  intros Hf. destruct fuel as [| fuel]; [lia |].
  rewrite run_ws_accept, run_ws_echo_loop by lia. reflexivity.
Qed.

Lemma websocket_echo_witness :
  run_ws 8 websocket_endpoint ["hi"; "bye"] =
  ([Accepted; Received "hi"; Sent "You said: hi";
    Received "bye"; Sent "You said: bye"], Raised WebSocketDisconnect).
Proof. apply (websocket_echo ["hi"; "bye"] 8). simpl. lia. Defined.

(** ** Server-sent events *)

Section ForEachYield.

(** A loop [for x in xs: yield f(x); await asyncio.sleep(n)]. *)
Context {A : Type} (f : A -> string) (n : Z).

Let body : A -> itree sseE unit := yield_then_sleep f n.

Lemma drain_observe {R} (fuel : nat) (t u : itree sseE R) :
  observe t = observe u -> drain fuel t = drain fuel u.
Proof. intros H. destruct fuel; simpl; [reflexivity | now rewrite H]. Qed.

Lemma drain_for_each_turn (fuel : nat) (x : A) (xs : list A) :
  drain (S (S fuel)) (for_each (x :: xs) body) =
  let (tr, o) := drain fuel (for_each xs body) in
  (Chunk (f x) :: Slept n :: tr, o).
Proof.
  cbn.
  rewrite (drain_observe fuel _ (for_each xs body)) by reflexivity.
  destruct (drain fuel (for_each xs body)) as [tr o]. reflexivity.
Qed.

(** Two steps of fuel per element and one for the return exhaust the
    generator. *)
Lemma drain_for_each (xs : list A) :
  forall fuel, 2 * List.length xs + 1 <= fuel ->
  drain fuel (for_each xs body) =
  (flat_map (fun x => [Chunk (f x); Slept n]) xs, Done tt).
Proof.
  induction xs as [| x xs IH]; intros fuel Hf.
  - destruct fuel as [| fuel]; [simpl in Hf; lia | reflexivity].
  - simpl List.length in Hf.
    destruct fuel as [| [| fuel]]; try lia.
    rewrite drain_for_each_turn, IH by lia. reflexivity.
Qed.

Lemma chunks_flat_map (xs : list A) :
  chunks (flat_map (fun x => [Chunk (f x); Slept n]) xs) = map f xs.
Proof. induction xs as [| x xs IH]; simpl; [| rewrite IH]; reflexivity. Qed.

(** However early the iteration is cut, the chunks written so far are the
    first elements' chunks, in order. *)
Lemma drain_for_each_prefix (xs : list A) :
  forall fuel, exists rest,
    map f xs = chunks (fst (drain fuel (for_each xs body))) ++ rest.
Proof.
  induction xs as [| x xs IH]; intros fuel.
  - exists []. destruct fuel; reflexivity.
  - destruct fuel as [| [| fuel]].
    + eexists. reflexivity.
    + eexists. reflexivity.
    + destruct (IH fuel) as [rest Hrest].
      exists rest. rewrite drain_for_each_turn.
      destruct (drain fuel (for_each xs body)) as [tr o].
      simpl in *. now rewrite Hrest.
Qed.

End ForEachYield.

Lemma event_stream_chunks :
  map (fun i => fstring [Lit "data: Server message "; FInt i; Lit (nl ++ nl)])
      (range 5) =
  map frame server_messages.
Proof. reflexivity. Qed.

Lemma server_messages_framed : Forall framed (map frame server_messages).
Proof.
  apply Forall_map, Forall_forall. intros p Hp.
  exists p. split; [reflexivity |].
  simpl in Hp. repeat (destruct Hp as [<- | Hp]; [reflexivity |]). contradiction.
Qed.

(** C5: a GET of the SSE path returns a response of media type
    text/event-stream, and every message written to its body, however far
    the body is read, is "data: " followed by a one-line payload and two
    line feeds. *)
Theorem sse_framing (s : stdout) (fuel : nat) :
  exists resp,
    sse_endpoint s = (Return resp, s) /\
    media_type resp = "text/event-stream" /\
    Forall framed (chunks (fst (drain fuel (body_iterator resp)))).
Proof.
  eexists. split; [reflexivity |]. split; [reflexivity |].
  simpl body_iterator. unfold event_stream.
  destruct (drain_for_each_prefix
              (fun i => fstring [Lit "data: Server message "; FInt i; Lit (nl ++ nl)])
              1 (range 5) fuel) as [rest Hrest].
  pose proof server_messages_framed as HF.
  rewrite <- event_stream_chunks, Hrest in HF.
  now apply Forall_app in HF.
Qed.

(** C6: the stream of a GET of the SSE path emits exactly the five messages
    "Server message 0" to "Server message 4", in that order, and then
    ends. *)
Theorem sse_five_messages (s : stdout) (fuel : nat) :
  11 <= fuel ->
  exists resp tr,
    sse_endpoint s = (Return resp, s) /\
    drain fuel (body_iterator resp) = (tr, Done tt) /\
    chunks tr = map frame ["Server message 0"; "Server message 1";
                           "Server message 2"; "Server message 3";
                           "Server message 4"].
Proof.
  intros Hf. eexists. eexists. split; [reflexivity |].
  simpl body_iterator. unfold event_stream. split.
  - apply drain_for_each. simpl. lia.
  - rewrite chunks_flat_map. apply event_stream_chunks.
Qed.

Lemma sse_five_messages_witness :
  exists resp tr,
    sse_endpoint [] = (Return resp, []) /\
    drain 11 (body_iterator resp) = (tr, Done tt) /\
    chunks tr = map frame ["Server message 0"; "Server message 1";
                           "Server message 2"; "Server message 3";
                           "Server message 4"].
Proof. apply (sse_five_messages [] 11). lia. Defined.

(** * Further properties *)

(** ** JSON-RPC *)

Lemma dict_get_str (d : dict) (k t : string) :
  dict_get d k = PyStr t <-> lookup d k = Some (PyStr t).
Proof.
  unfold dict_get. destruct (lookup d k) as [v |]; split; intros H;
    try discriminate; congruence.
Qed.

Lemma rpc_endpoint_returns (req : Request) (s s' : stdout) (r : value) :
  rpc_endpoint req s = (Return r, s') ->
  exists data, body_json req = Return (PyDict data) /\ s' = s /\
    (r = pong (dict_get data "id") \/ r = method_not_found (dict_get data "id")).
Proof.
  destruct req as [[v | e]].
  - destruct (is_dict v) eqn:Hd.
    + destruct v; try discriminate. rewrite rpc_endpoint_dict.
      intros [= <- <-]. eexists. split; [reflexivity |]. split; [reflexivity |].
      destruct (eq_str _ _); auto.
    + rewrite (rpc_endpoint_not_dict _ _ Hd). discriminate.
  - rewrite rpc_endpoint_parse_error. discriminate.
Qed.

(** X1: every response of the RPC endpoint is an object with exactly three
    members, in this order: "jsonrpc" with value "2.0", then either "result"
    or "error" (never both), then "id" holding the request's
    [data.get("id")]; the endpoint prints nothing. *)
Theorem rpc_response_shape (req : Request) (s s' : stdout) (r : value) :
  rpc_endpoint req s = (Return r, s') ->
  exists d data,
    body_json req = Return (PyDict data) /\ r = PyDict d /\ s' = s /\
    (map fst d = ["jsonrpc"; "result"; "id"] \/
     map fst d = ["jsonrpc"; "error"; "id"]) /\
    lookup d "jsonrpc" = Some (PyStr "2.0") /\
    lookup d "id" = Some (dict_get data "id").
Proof.
  intros H. apply rpc_endpoint_returns in H.
  destruct H as [data [Hb [Hs [-> | ->]]]];
    eexists; exists data; repeat split; auto.
Qed.

Lemma rpc_response_shape_witness :
  exists d data,
    body_json (mkRequest (Return (PyDict [("method", PyStr "ping")]))) =
      Return (PyDict data) /\
    pong PyNone = PyDict d /\ @nil piece = [] /\
    (map fst d = ["jsonrpc"; "result"; "id"] \/
     map fst d = ["jsonrpc"; "error"; "id"]) /\
    lookup d "jsonrpc" = Some (PyStr "2.0") /\
    lookup d "id" = Some (dict_get data "id").
Proof.
  apply (rpc_response_shape
           (mkRequest (Return (PyDict [("method", PyStr "ping")]))) [] []).
  reflexivity.
Defined.

(** X2: on an object body the endpoint answers with the pong response if and
    only if the member "method" is present and is the string "ping". *)
Theorem rpc_pong_iff_ping (d : dict) (s : stdout) :
  rpc_endpoint (mkRequest (Return (PyDict d))) s =
    (Return (pong (dict_get d "id")), s) <->
  lookup d "method" = Some (PyStr "ping").
Proof.
  rewrite rpc_endpoint_dict, <- dict_get_str, <- eq_str_true.
  destruct (eq_str (dict_get d "method") "ping"); split; intros H;
    try reflexivity; discriminate.
Qed.

Lemma rpc_pong_iff_ping_witness :
  rpc_endpoint
    (mkRequest (Return (PyDict [("id", PyInt 7); ("method", PyStr "ping")]))) [] =
  (Return (pong (PyInt 7)), []).
Proof.
  apply (proj2 (rpc_pong_iff_ping [("id", PyInt 7); ("method", PyStr "ping")] [])).
  reflexivity.
Defined.

(** X3: the response depends on the members "method" and "id" only; every
    other member of the request, "params" included, is ignored. *)
Theorem rpc_ignores_other_members (d1 d2 : dict) (s : stdout) :
  lookup d1 "method" = lookup d2 "method" ->
  lookup d1 "id" = lookup d2 "id" ->
  rpc_endpoint (mkRequest (Return (PyDict d1))) s =
  rpc_endpoint (mkRequest (Return (PyDict d2))) s.
Proof.
  intros Hm Hi. rewrite !rpc_endpoint_dict. unfold dict_get.
  rewrite Hm, Hi. reflexivity.
Qed.

Lemma rpc_ignores_other_members_witness :
  rpc_endpoint
    (mkRequest (Return (PyDict [("jsonrpc", PyStr "2.0"); ("method", PyStr "ping");
                                ("params", PyList [PyInt 1; PyInt 2]);
                                ("id", PyInt 3)]))) [] =
  rpc_endpoint
    (mkRequest (Return (PyDict [("id", PyInt 3); ("method", PyStr "ping")]))) [].
Proof. apply rpc_ignores_other_members; reflexivity. Defined.

(** X4: the RPC endpoint returns a response exactly when the body is a JSON
    object; on every other body an exception leaves the handler. *)
Theorem rpc_returns_iff_object (req : Request) (s : stdout) :
  (exists r, rpc_endpoint req s = (Return r, s)) <-> malformed req = false.
Proof.
  unfold malformed. split.
  - intros [r H]. apply rpc_endpoint_returns in H.
    destruct H as [data [-> _]]. reflexivity.
  - destruct req as [[v | e]]; simpl; [| discriminate].
    destruct v; try discriminate. intros _.
    eexists. apply rpc_endpoint_dict.
Qed.

Lemma rpc_returns_iff_object_witness :
  exists r, rpc_endpoint (mkRequest (Return (PyDict []))) [] = (Return r, []).
Proof.
  apply (proj2 (rpc_returns_iff_object (mkRequest (Return (PyDict []))) [])).
  reflexivity.
Defined.

(** X5: a ping without an "id" member (a notification) is still answered,
    with "id" null. *)
Theorem rpc_ping_without_id (d : dict) (s : stdout) :
  lookup d "method" = Some (PyStr "ping") ->
  lookup d "id" = None ->
  rpc_endpoint (mkRequest (Return (PyDict d))) s =
  (Return (PyDict [("jsonrpc", PyStr "2.0"); ("result", PyStr "pong");
                   ("id", PyNone)]), s).
Proof.
  intros Hm Hi. rewrite rpc_endpoint_dict.
  rewrite (dict_get_some _ _ _ Hm), (dict_get_none _ _ Hi). reflexivity.
Qed.

Lemma rpc_ping_without_id_witness :
  rpc_endpoint (mkRequest (Return (PyDict [("method", PyStr "ping")]))) [] =
  (Return (PyDict [("jsonrpc", PyStr "2.0"); ("result", PyStr "pong");
                   ("id", PyNone)]), []).
Proof. apply rpc_ping_without_id; reflexivity. Defined.

(** ** Webhook *)

(** X6: an exception leaves the webhook handler in two ways only: it is
    the one [request.json()] raised, and then nothing was written; or the
    body parsed and a write of [print] raised it, after the pieces before it
    were written.  A body that did not parse is never logged. *)
Theorem webhook_raise_causes {out : TextIO}
    (req : Request) (s s' : stdout) (e : exn) :
  webhook_listener req s = (Raise e, s') ->
  (body_json req = Raise e /\ s' = s) \/
  (exists p, body_json req = Return p /\
             refusal (webhook_print p) = Some e /\
             s' = s ++ accepted (webhook_print p)).
Proof.
  destruct req as [[p | e']]; simpl.
  - rewrite webhook_listener_parsed.
    destruct (refusal (webhook_print p)) as [e0 |] eqn:Hr; [| discriminate].
    intros [= -> <-]. right. exists p. auto.
  - rewrite webhook_listener_parse_error. intros [= -> ->]. auto.
Qed.

Lemma webhook_raise_causes_witness :
  (body_json (mkRequest (Return (PyStr lone_surrogate))) = Raise UnicodeEncodeError /\
   [Text "Webhook received:"; Text " "] = @nil piece) \/
  (exists p, body_json (mkRequest (Return (PyStr lone_surrogate))) = Return p /\
             refusal (out := utf8_strict) (webhook_print p) = Some UnicodeEncodeError /\
             [Text "Webhook received:"; Text " "] =
             [] ++ accepted (out := utf8_strict) (webhook_print p)).
Proof.
  apply (webhook_raise_causes (out := utf8_strict)
           (mkRequest (Return (PyStr lone_surrogate))) []).
  reflexivity.
Defined.



(** X8: serving any sequence of RPC requests leaves standard output as it
    was, and each request gets the answer it would get on its own. *)
Theorem rpc_serve_silent (reqs : list Request) (s : stdout) :
  serve (map rpc_endpoint reqs) s =
  (map (fun req => fst (rpc_endpoint req [])) reqs, s).
Proof.
  revert s. induction reqs as [| req reqs IH]; intros s; simpl.
  - reflexivity.
  - destruct (rpc_endpoint_pure req) as [o H].
    rewrite (H s), IH, (H []). reflexivity.
Qed.

(** ** WebSocket *)

(** The loop, cut anywhere: it has either run out of fuel on a prefix of the
    exchange, or has been left by [WebSocketDisconnect] after the whole
    exchange; no more than one frame awaits its reply. *)
Lemma run_ws_echo_cut {R} (inbox : list string) :
  forall fuel,
    let run := run_ws fuel (ITree.forever echo_turn : itree wsE R) inbox in
    (sent_count (fst run) <= received_count (fst run) <= S (sent_count (fst run))) /\
    (snd run = OutOfFuel \/
     snd run = Raised WebSocketDisconnect /\ fst run = echo_trace inbox).
Proof.
  induction inbox as [| d inbox IH]; intros fuel.
  - destruct fuel; simpl; split; auto; lia.
  - destruct fuel as [| [| [| fuel]]].
    + simpl. split; auto; lia.
    + simpl. split; auto; lia.
    + simpl. split; auto; lia.
    + specialize (IH fuel). cbv zeta in *. rewrite run_ws_echo_turn.
      destruct (run_ws fuel (ITree.forever echo_turn) inbox) as [tr o].
      simpl in *. destruct IH as [IHc IHe]. split; [lia |].
      destruct IHe as [-> | [-> ->]]; auto.
Qed.

(** X9: however long the session has run, what the connection shows is an
    initial part of "accepted, then each frame followed by its reply": the
    handler sends nothing before it accepts, nothing unsolicited, and no
    reply twice or out of turn. *)
Theorem websocket_trace_prefix (inbox : list string) (fuel : nat) :
  exists rest,
    Accepted :: echo_trace inbox =
    fst (run_ws fuel websocket_endpoint inbox) ++ rest.
Proof.
  destruct fuel as [| fuel].
  - eexists. reflexivity.
  - rewrite run_ws_accept.
    destruct (run_ws_echo_prefix (R := void) inbox fuel) as [rest Hrest].
    exists rest.
    destruct (run_ws fuel (ITree.forever echo_turn) inbox) as [tr o].
    simpl in *. now rewrite Hrest.
Qed.

(** X10: at every moment of a session the frames sent are as many as the
    frames received, or one fewer: at most one frame awaits its reply. *)
Theorem websocket_one_pending (inbox : list string) (fuel : nat) :
  let tr := fst (run_ws fuel websocket_endpoint inbox) in
  sent_count tr <= received_count tr <= S (sent_count tr).
Proof.
  destruct fuel as [| fuel]; cbv zeta.
  - simpl. lia.
  - rewrite run_ws_accept.
    destruct (run_ws_echo_cut (R := void) inbox fuel) as [Hc _]. cbv zeta in Hc.
    destruct (run_ws fuel (ITree.forever echo_turn) inbox) as [tr o].
    simpl in *. exact Hc.
Qed.

(** ** Server-sent events *)

Lemma firstn_length_app {A} (a b : list A) :
  firstn (List.length a) (a ++ b) = a.
Proof. induction a as [| x a IH]; simpl; [| rewrite IH]; reflexivity. Qed.

(** X12: iterated to exhaustion, the generator sleeps one second after each
    of its five messages, the last one included: five seconds pass before
    the stream ends. *)
Theorem event_stream_paced (fuel : nat) :
  11 <= fuel ->
  exists tr,
    drain fuel event_stream = (tr, Done tt) /\
    tr = flat_map (fun p => [Chunk (frame p); Slept 1]) server_messages /\
    slept_total tr = 5%Z.
Proof.
  intros Hf. eexists. split.
  - unfold event_stream. apply drain_for_each. simpl. lia.
  - split; reflexivity.
Qed.

Lemma event_stream_paced_witness :
  exists tr,
    drain 11 event_stream = (tr, Done tt) /\
    tr = flat_map (fun p => [Chunk (frame p); Slept 1]) server_messages /\
    slept_total tr = 5%Z.
Proof. apply (event_stream_paced 11). lia. Defined.

(** X13: a client that stops reading early has received the first [k] of
    the five messages, for some [k], complete and in order: no message is
    skipped, repeated or reordered. *)
Theorem event_stream_cut (fuel : nat) :
  exists k, k <= 5 /\
    chunks (fst (drain fuel event_stream)) = firstn k (map frame server_messages).
Proof.
  unfold event_stream.
  destruct (drain_for_each_prefix
              (fun i => fstring [Lit "data: Server message "; FInt i; Lit (nl ++ nl)])
              1 (range 5) fuel) as [rest Hrest].
  rewrite event_stream_chunks in Hrest.
  set (cs := chunks _) in *.
  exists (List.length cs). split.
  - apply (f_equal (@List.length string)) in Hrest.
    rewrite length_app in Hrest. simpl in Hrest. lia.
  - rewrite Hrest. symmetry. apply firstn_length_app.
Qed.

(** ** SOAP *)

(** X15: [say_hello] loses nothing of the name: the greeting is six
    characters longer than the name, and what follows its first six
    characters is the name, whatever the name contains (so different names
    get different greetings). *)
Theorem say_hello_lossless {Ctx : Type} (ctx : Ctx) (name : string) :
  String.length (SoapService.say_hello ctx name) = 6 + String.length name /\
  substring 6 (String.length (SoapService.say_hello ctx name) - 6)
            (SoapService.say_hello ctx name) = name.
Proof.
  unfold SoapService.say_hello. rewrite fstring_lit_str.
  assert (Hlen : String.length ("Hello " ++ name) = 6 + String.length name)
    by reflexivity.
  split; [exact Hlen |].
  rewrite Hlen. replace (6 + String.length name - 6) with (String.length name) by lia.
  simpl. induction name as [| c name IH]; simpl; [reflexivity | now rewrite IH].
Qed.
